(** * Verification model of the Gemini Live relay server (server.py)

    The development embeds the three functions of [server.py] that carry the
    security and relay logic:

    - [generate_access_token]  (credential resolution),
    - [proxy_bidirectional]    (the two message pumps and their [gather]),
    - [websocket_handler]      (handshake validation and session setup).

    Python values are modelled by an inductive type of decoded JSON values,
    Python exceptions by an explicit result type, the process environment
    [os.environ] by a finite map, and the calls a handler makes on its
    collaborators (closing the client socket, resolving a credential,
    connecting to the upstream) by an event trace.  Diagnostic [print]
    calls are not modelled. *)

From Stdlib Require Import ZArith Ascii String List Bool Lia.
From stdpp Require Import base option list gmap strings.

Local Open Scope string_scope.
Local Set Warnings "-register-all".

(** ** Python values *)

Module Py.

(** A Python float: a finite dyadic value, an infinity or a NaN.  Only its
    truth value is observed by the server. *)
Inductive pyfloat :=
| FFinite (mantissa exponent : Z)
| FInf (negative : bool)
| FNan.

(** The values [json.loads] can produce.  A JSON object becomes a [dict],
    which has one binding per key. *)
Inductive value :=
| VNone
| VBool (b : bool)
| VInt (z : Z)
| VFloat (f : pyfloat)
| VStr (s : string)
| VList (l : list value)
| VDict (d : gmap string value).

(** Truth value of an object, as tested by [if not x]. *)
Definition truthy (v : value) : bool :=
  match v with
  | VNone => false
  | VBool b => b
  | VInt z => negb (z =? 0)%Z
  | VFloat (FFinite m _) => negb (m =? 0)%Z
  | VFloat _ => true
  | VStr s => negb (String.eqb s "")
  | VList l => match l with [] => false | _ => true end
  | VDict d => negb (bool_decide (d = ∅))
  end.

(** The exceptions (all subclasses of [Exception]) the modelled code can
    meet. *)
Inductive exn :=
| JSONDecodeError
| AttributeError
| TypeError
| ValueError
| DefaultCredentialsError
| RefreshError
| ClientError
| ConnectionResetError.

(** Outcome of a call that may raise. *)
Inductive result (A : Type) :=
| Ok (a : A)
| Raise (e : exn).
Arguments Ok {A} a.
Arguments Raise {A} e.

End Py.

(** ** [urllib.parse]: the part of [urlparse] that yields [hostname]

    [server.py] imports [urlparse] from the Python standard library and
    reads the [hostname] property of its result.  The definitions below
    follow CPython's [urllib/parse.py] ([urlsplit], [_splitnetloc],
    [_hostinfo], [hostname]).  A Python [str] is modelled by a [string]
    whose characters are the code points below 256, which covers every
    ASCII URL; on that range [_checknetloc] never raises.  The validation of
    a bracketed host ([_check_bracketed_host], which calls the [ipaddress]
    module) is a parameter. *)

Module urllib_parse.
Import Py.

Definition code (c : ascii) : nat := nat_of_ascii c.

Definition in_range (lo hi : nat) (c : ascii) : bool :=
  (lo <=? code c)%nat && (code c <=? hi)%nat.

Definition is_upper (c : ascii) : bool := in_range 65 90 c.
Definition is_lower (c : ascii) : bool := in_range 97 122 c.
Definition is_digit (c : ascii) : bool := in_range 48 57 c.
Definition is_ascii_alpha (c : ascii) : bool := is_upper c || is_lower c.

(** [str.lower] on one character: ASCII [A-Z] and the Latin-1 capitals
    U+00C0..U+00DE except the multiplication sign U+00D7. *)
Definition lower_char (c : ascii) : ascii :=
  if is_upper c || (in_range 192 222 c && negb (code c =? 215)%nat)
  then ascii_of_nat (code c + 32)
  else c.

Fixpoint lower (s : string) : string :=
  match s with
  | EmptyString => EmptyString
  | String c s' => String (lower_char c) (lower s')
  end.

(** [c in s] *)
Fixpoint contains (c : ascii) (s : string) : bool :=
  match s with
  | EmptyString => false
  | String c' s' => Ascii.eqb c' c || contains c s'
  end.

(** [all(p(c) for c in s)] *)
Fixpoint all_chars (p : ascii -> bool) (s : string) : bool :=
  match s with
  | EmptyString => true
  | String c s' => p c && all_chars p s'
  end.

(** [s.partition(sep)]: the text before the first [sep], whether [sep] was
    found, and the text after it; [(s, False, '')] when it is absent. *)
Fixpoint partition (sep : ascii) (s : string) : string * bool * string :=
  match s with
  | EmptyString => (EmptyString, false, EmptyString)
  | String c s' =>
      if Ascii.eqb c sep then (EmptyString, true, s')
      else let '(before, found, after) := partition sep s' in
           (String c before, found, after)
  end.

(** [s.rpartition(sep)]: split at the last [sep]; [('', False, s)] when it
    is absent. *)
Fixpoint rpartition (sep : ascii) (s : string) : string * bool * string :=
  match s with
  | EmptyString => (EmptyString, false, EmptyString)
  | String c s' =>
      let '(before, found, after) := rpartition sep s' in
      if found then (String c before, true, after)
      else if Ascii.eqb c sep then (EmptyString, true, s')
      else (EmptyString, false, String c after)
  end.

(** [url.lstrip(_WHATWG_C0_CONTROL_OR_SPACE)]: drop leading characters
    U+0000..U+0020. *)
Fixpoint lstrip_c0_space (s : string) : string :=
  match s with
  | EmptyString => EmptyString
  | String c s' => if (code c <=? 32)%nat then lstrip_c0_space s' else s
  end.

(** Removal of [_UNSAFE_URL_BYTES_TO_REMOVE] (tab, carriage return, line
    feed) from the whole URL. *)
Definition unsafe_char (c : ascii) : bool :=
  (code c =? 9)%nat || (code c =? 13)%nat || (code c =? 10)%nat.

Fixpoint remove_unsafe (s : string) : string :=
  match s with
  | EmptyString => EmptyString
  | String c s' =>
      if unsafe_char c then remove_unsafe s' else String c (remove_unsafe s')
  end.

(** A character that this removal keeps. *)
Definition safe_char (c : ascii) : bool := negb (unsafe_char c).

(** [scheme_chars]: letters, digits and [+-.]. *)
Definition scheme_char (c : ascii) : bool :=
  is_ascii_alpha c || is_digit c ||
  Ascii.eqb c "+" || Ascii.eqb c "-" || Ascii.eqb c ".".

(** The scheme test of [urlsplit]: [i = url.find(':')], [i > 0], a leading
    ASCII letter and only scheme characters before the colon. *)
Definition split_scheme (url : string) : string * string :=
  let '(before, found, after) := partition ":" url in
  match before with
  | String c0 _ =>
      if found && is_ascii_alpha c0 && all_chars scheme_char before
      then (lower before, after)
      else (EmptyString, url)
  | EmptyString => (EmptyString, url)
  end.

(** [_splitnetloc(url, 2)] applied to the text after the leading [//]: the
    network location runs up to the first of [/], [?], [#]. *)
Definition netloc_delim (c : ascii) : bool :=
  Ascii.eqb c "/" || Ascii.eqb c "?" || Ascii.eqb c "#".

Fixpoint _splitnetloc (s : string) : string * string :=
  match s with
  | EmptyString => (EmptyString, EmptyString)
  | String c s' =>
      if netloc_delim c then (EmptyString, s)
      else let '(netloc, rest) := _splitnetloc s' in (String c netloc, rest)
  end.

(** The result of [urlparse], restricted to the components fixed before the
    path is split further; [rest] is the path with its parameters, query and
    fragment, none of which the server reads. *)
Record ParseResult := {
  scheme : string;
  netloc : string;
  rest : string
}.

Section Parse.

(** [_check_bracketed_host] returns normally. *)
Variable valid_bracketed_host : string -> bool.

Definition bracketed_host (netloc : string) : string :=
  (partition "]" (partition "[" netloc).2).1.1.

Definition urlparse (url : string) : result ParseResult :=
  let url := remove_unsafe (lstrip_c0_space url) in
  let '(scheme, url) := split_scheme url in
  match url with
  | String "/" (String "/" after) =>
      let '(netloc, url) := _splitnetloc after in
      if xorb (contains "[" netloc) (contains "]" netloc)
      then Raise ValueError
      else if contains "[" netloc &&
              negb (valid_bracketed_host (bracketed_host netloc))
      then Raise ValueError
      else Ok {| scheme := scheme; netloc := netloc; rest := url |}
  | _ => Ok {| scheme := scheme; netloc := EmptyString; rest := url |}
  end.

End Parse.

(** [_hostinfo[0]] *)
Definition _hostinfo (p : ParseResult) : string :=
  let hostinfo := (rpartition "@" (netloc p)).2 in
  let '(_, have_open_br, bracketed) := partition "[" hostinfo in
  if have_open_br then (partition "]" bracketed).1.1
  else (partition ":" hostinfo).1.1.

(** The [hostname] property: [None] for an empty host, otherwise the host
    in lower case, a zone identifier after [%] being kept as written. *)
Definition hostname (p : ParseResult) : option string :=
  let hostname := _hostinfo p in
  match hostname with
  | EmptyString => None
  | _ =>
      let '(hostname, percent, zone) := partition "%" hostname in
      Some (lower hostname ++ (if percent then "%" else "") ++ zone)
  end.

(** *** URLs of the usual shape [scheme://host] followed by a path, query
    or fragment *)


Definition host_char (c : ascii) : bool :=
  is_ascii_alpha c || is_digit c || Ascii.eqb c "-" || Ascii.eqb c ".".

(** A host name written without user information, port or brackets. *)
Definition plain_host (s : string) : bool :=
  match s with
  | String _ _ => all_chars host_char s
  | EmptyString => false
  end.

(** What may follow the host: nothing, or text that starts with [/], [?]
    or [#]. *)
Definition ends_host (tail : string) : bool :=
  match tail with
  | String c _ => netloc_delim c
  | EmptyString => true
  end.

End urllib_parse.

(** ** [aiohttp] web sockets *)

Module aiohttp.

(** [aiohttp.WSMsgType] *)
Inductive WSMsgType :=
| CONTINUATION | TEXT | BINARY | PING | PONG | CLOSE | CLOSING | CLOSED | ERROR.

#[global] Instance WSMsgType_eq_dec : EqDecision WSMsgType.
Proof. solve_decision. Defined.

(** A received message; [data] is the text of a [TEXT] frame and the bytes
    of a [BINARY] frame. *)
Record WSMessage := {
  type : WSMsgType;
  data : string
}.

(** What is written to a web socket: [send_str] or [send_bytes]. *)
Inductive Frame :=
| send_str (s : string)
| send_bytes (b : string).

(** One end of a web socket as a pump sees it.  [incoming] are all the
    messages that will ever arrive on it: once they are consumed [receive]
    stays blocked.  A closed connection shows as a [CLOSE], [CLOSING] or
    [CLOSED] message.  [send_limit] is the number of writes the socket
    accepts before a write raises ([None]: every write succeeds). *)
Record WebSocket := {
  incoming : list WSMessage;
  send_limit : option nat
}.

(** [__anext__] of a web socket raises [StopAsyncIteration] on these
    message types, which ends an [async for] loop. *)
Definition stops_iteration (t : WSMsgType) : bool :=
  match t with
  | CLOSE | CLOSING | CLOSED => true
  | _ => false
  end.

End aiohttp.

(** ** The server *)

Module server.
Import Py aiohttp.

(** Module-level configuration, read from the environment when the module
    is loaded. *)
Record Config := {
  GCP_PROJECT_ID : string;
  GCP_REGION : string;
  GOOGLE_APPLICATION_CREDENTIALS : option string
}.

(** The credentials object returned by [google.auth.default]: its [valid]
    and [token] attributes, and the outcome of [refresh] (an exception, or
    the token the object holds afterwards). *)
Record Credentials := {
  valid : bool;
  token : option string;
  refresh : result (option string)
}.

(** What a handler asks of its collaborators. *)
Inductive Event :=
| ws_client_close (code : Z) (message : string)
| call_generate_access_token
| ws_connect (url : value) (headers : list (string * string))
| relayed (to_server to_client : list Frame).

#[global] Instance Frame_eq_dec : EqDecision Frame.
Proof. solve_decision. Defined.

(** The surroundings of one session: the file system, the credential
    discovery of [google.auth], the upstream reached by [ws_connect], and
    the client's web socket after the handshake message. *)
Record World := {
  path_exists : string -> bool;
  google_auth_default :
    list string -> gmap string string -> result (Credentials * option string);
  session_ws_connect : value -> list (string * string) -> result WebSocket;
  ws_client : WebSocket
}.

(** Process-wide state ([os.environ]) and the trace of the session. *)
Record State := {
  environ : gmap string string;
  trace : list Event
}.

(** *** A monad for state, exceptions and awaits that never complete *)

Inductive outcome (A : Type) :=
| Returned (a : A)
| Raised (e : exn)
| Pending.
Arguments Returned {A} a.
Arguments Raised {A} e.
Arguments Pending {A}.

Definition M (A : Type) : Type := State -> outcome A * State.

Definition ret {A} (a : A) : M A := fun st => (Returned a, st).

Definition bind {A B} (m : M A) (k : A -> M B) : M B :=
  fun st =>
    match m st with
    | (Returned a, st') => k a st'
    | (Raised e, st') => (Raised e, st')
    | (Pending, st') => (Pending, st')
    end.

Definition raise {A} (e : exn) : M A := fun st => (Raised e, st).

Definition lift {A} (r : result A) : M A :=
  match r with
  | Ok a => ret a
  | Raise e => raise e
  end.

(** [try: body  except Exception as e: handler] *)
Definition try_except {A} (body : M A) (handler : exn -> M A) : M A :=
  fun st =>
    match body st with
    | (Raised e, st') => handler e st'
    | r => r
    end.

(** The outcome of an awaited computation that touches no state. *)
Definition await {A} (o : outcome A) : M A := fun st => (o, st).

Definition emit (e : Event) : M unit :=
  fun st => (Returned tt, {| environ := environ st; trace := trace st ++ [e] |}).

Definition getenv : M (gmap string string) :=
  fun st => (Returned (environ st), st).

(** [os.environ[k] = v] *)
Definition setenv (k v : string) : M unit :=
  fun st => (Returned tt, {| environ := <[k := v]> (environ st); trace := trace st |}).

(** The monad is used through stdpp's notations [x ← m; k] and [m;; k]. *)
#[global] Instance M_ret : MRet M := @ret.
#[global] Instance M_bind : MBind M := fun A B k m => bind m k.

(** Truth value of an optional string ([None] and [''] are false). *)
Definition truthy_str (o : option string) : bool :=
  match o with
  | Some s => negb (String.eqb s "")
  | None => false
  end.

Definition of_option (o : option string) : value :=
  match o with
  | Some s => VStr s
  | None => VNone
  end.

(** [data.get(key)]: [AttributeError] unless [data] is a [dict]. *)
Definition get (data : value) (key : string) : result value :=
  match data with
  | VDict d => Ok (default VNone (d !! key))
  | _ => Raise AttributeError
  end.

(** *** [generate_access_token] *)

Definition scopes : list string :=
  ["https://www.googleapis.com/auth/cloud-platform"].

Section GenerateAccessToken.

Variable cfg : Config.
Variable w : World.

(** Step 1, path detection: the configured path, else the secret file of
    the hosting platform when it exists; the path found is written to
    [os.environ]. *)
Definition detect_credentials_path : M unit :=
  let render_secret_default := "/etc/secrets/googlekey.json" in
  let target_creds := GOOGLE_APPLICATION_CREDENTIALS cfg in
  let target_creds :=
    if negb (truthy_str target_creds)
    then (if path_exists w render_secret_default
          then Some render_secret_default
          else target_creds)
    else target_creds in
  match target_creds with
  | Some path =>
      if truthy_str target_creds
      then setenv "GOOGLE_APPLICATION_CREDENTIALS" path
      else ret tt
  | None => ret tt
  end.

(** Step 2: discover the credentials, refresh them unless they are valid,
    and return their token. *)
Definition get_credentials : M (option string) :=
  env ← getenv;
  '(creds, project) ← lift (google_auth_default w scopes env);
  if negb (valid creds)
  then lift (refresh creds)
  else ret (token creds).

Definition generate_access_token : M (option string) :=
  try_except
    (detect_credentials_path;; get_credentials)
    (fun e => ret None).

End GenerateAccessToken.

(** *** [proxy_bidirectional] *)

Inductive pump_status :=
| Finished
| Blocked
| Failed (e : exn).

(** The loop shared by [client_to_server] and [server_to_client]: read from
    [inbox], write to a socket that accepts [limit] more writes. *)
Fixpoint pump (limit : option nat) (inbox : list WSMessage)
  : list Frame * pump_status :=
  match inbox with
  | [] => ([], Blocked)
  | msg :: inbox' =>
      if stops_iteration (type msg) then ([], Finished)
      else
        let send (f : Frame) :=
          match limit with
          | Some O => ([], Failed ConnectionResetError)
          | _ =>
              let '(sent, st) := pump (pred <$> limit) inbox' in
              (f :: sent, st)
          end in
        match type msg with
        | TEXT => send (send_str (data msg))
        | BINARY => send (send_bytes (data msg))
        | CLOSE => ([], Finished)
        | _ => pump limit inbox'
        end
  end.

Definition client_to_server (ws_client ws_server : WebSocket) :=
  pump (send_limit ws_server) (incoming ws_client).

Definition server_to_client (ws_client ws_server : WebSocket) :=
  pump (send_limit ws_client) (incoming ws_server).

(** [await asyncio.gather(a, b)]: the first exception is raised to the
    caller at once; otherwise the await completes when both are done. *)
Definition gather (a b : pump_status) : outcome unit :=
  match a, b with
  | Failed e, _ => Raised e
  | _, Failed e => Raised e
  | Finished, Finished => Returned tt
  | _, _ => Pending
  end.

Definition proxy_bidirectional (ws_client ws_server : WebSocket) : M unit :=
  let '(to_server, a) := client_to_server ws_client ws_server in
  let '(to_client, b) := server_to_client ws_client ws_server in
  emit (relayed to_server to_client);;
  await (gather a b).

(** *** [websocket_handler] *)

(** [allowed_host = f"{GCP_REGION}-aiplatform.googleapis.com"] *)
Definition allowed_host (cfg : Config) : string :=
  GCP_REGION cfg ++ "-aiplatform.googleapis.com".

Section Handler.

(** [json.loads] *)
Variable json_loads : string -> result value.
(** [_check_bracketed_host] of [urllib.parse] *)
Variable valid_bracketed_host : string -> bool.
(** [str(x)] for a value that is not a [str] *)
Variable py_str : value -> string.

Variable cfg : Config.
Variable w : World.

(** [urlparse(x).hostname] for an arbitrary argument: a [str] is parsed, a
    false non-[str] is treated as empty, anything else has no [decode]. *)
Definition urlparse_hostname (x : value) : result (option string) :=
  match x with
  | VStr s =>
      match urllib_parse.urlparse valid_bracketed_host s with
      | Ok parsed => Ok (urllib_parse.hostname parsed)
      | Raise e => Raise e
      end
  | _ => if truthy x then Raise AttributeError else Ok None
  end.

(** [f"{x}"] *)
Definition format_value (x : value) : string :=
  match x with
  | VStr s => s
  | _ => py_str x
  end.

(** Step 3 of the handler: connect to the upstream and relay. *)
Definition connect_and_relay (service_url bearer_token : value) : M unit :=
  let headers :=
    [("Content-Type", "application/json");
     ("Authorization", "Bearer " ++ format_value bearer_token)] in
  emit (ws_connect service_url headers);;
  ws_server ← lift (session_ws_connect w service_url headers);
  proxy_bidirectional (ws_client w) ws_server.

(** Step 2 of the handler: a token of the client is used as it is; without
    one the server resolves its own credential. *)
Definition authenticate_and_connect (service_url bearer_token : value) : M unit :=
  if negb (truthy bearer_token)
  then
    emit call_generate_access_token;;
    bearer_token ← generate_access_token cfg w;
    if negb (truthy_str bearer_token)
    then emit (ws_client_close 1008 "Auth failed")
    else connect_and_relay service_url (of_option bearer_token)
  else connect_and_relay service_url bearer_token.

Definition websocket_handler (msg : WSMessage) : M unit :=
  try_except
    (if negb (bool_decide (type msg = TEXT))
     then emit (ws_client_close 1008 "")
     else
       data ← lift (json_loads (data msg));
       bearer_token ← lift (get data "bearer_token");
       service_url ← lift (get data "service_url");
       if negb (truthy service_url)
       then emit (ws_client_close 1008 "Service URL missing")
       else
         parsed_hostname ← lift (urlparse_hostname service_url);
         if negb (bool_decide (parsed_hostname = Some (allowed_host cfg)))
         then emit (ws_client_close 1008 "Unauthorized Service URL")
         else authenticate_and_connect service_url bearer_token)
    (fun e => ret tt).

End Handler.

(** *** Observations on a session *)

(** A session starts with an empty trace. *)
Definition start (env : gmap string string) : State :=
  {| environ := env; trace := [] |}.

Definition is_connect (e : Event) : bool :=
  match e with ws_connect _ _ => true | _ => false end.

Definition is_token_call (e : Event) : bool :=
  match e with call_generate_access_token => true | _ => false end.

(** An outbound connection was attempted. *)
Definition attempts_connection (t : list Event) : bool := existsb is_connect t.

(** [generate_access_token] was invoked. *)
Definition resolves_credential (t : list Event) : bool := existsb is_token_call t.

(** The session was closed with the policy-violation code and [reason]. *)
Definition is_close_with (reason : string) (e : Event) : bool :=
  match e with
  | ws_client_close code message =>
      (code =? 1008)%Z && String.eqb message reason
  | _ => false
  end.

Definition rejected_with (reason : string) (t : list Event) : bool :=
  existsb (is_close_with reason) t.

(** A close message (or the end of the stream) is among the messages that
    arrive on a socket. *)
Definition receives_close (ws : WebSocket) : bool :=
  existsb (fun msg => stops_iteration (type msg)) (incoming ws).

(** Discovery or refresh fails when [google.auth.default] is called in the
    environment [env]. *)
Definition authentication_fails (w : World) (env : gmap string string) : bool :=
  match google_auth_default w scopes env with
  | Raise _ => true
  | Ok (creds, _) =>
      negb (valid creds) &&
      match refresh creds with Raise _ => true | Ok _ => false end
  end.

(** The reasons a rejection close may carry. *)
Definition rejection_reasons : list string :=
  ["Service URL missing"; "Unauthorized Service URL"; "Auth failed"].

(** The frame a pump writes for a data message. *)
Definition forward (msg : WSMessage) : Frame :=
  match type msg with
  | BINARY => send_bytes (data msg)
  | _ => send_str (data msg)
  end.

Definition is_data (msg : WSMessage) : bool :=
  match type msg with
  | TEXT | BINARY => true
  | _ => false
  end.

(** A socket with write limit [limit] accepts [n] writes. *)
Definition accepts (limit : option nat) (n : nat) : bool :=
  match limit with
  | None => true
  | Some k => (n <=? k)%nat
  end.

End server.

(** ** Concrete sessions *)

Module examples.
Import Py aiohttp server.

(** The double quote character. *)
Definition dq : string := String (ascii_of_nat 34) EmptyString.

(** The JSON text [{"k1":"v1","k2":"v2"}] of an object of strings. *)
Fixpoint json_members (fields : list (string * string)) : string :=
  match fields with
  | [] => EmptyString
  | [(k, v)] => dq ++ k ++ dq ++ ":" ++ dq ++ v ++ dq
  | (k, v) :: fields' =>
      dq ++ k ++ dq ++ ":" ++ dq ++ v ++ dq ++ "," ++ json_members fields'
  end.

Definition json_object (fields : list (string * string)) : string :=
  "{" ++ json_members fields ++ "}".

(** The [dict] that [json.loads] returns for such a text (keys distinct). *)
Definition dict_of (fields : list (string * string)) : gmap string value :=
  list_to_map (map (fun kv => (kv.1, VStr kv.2)) fields).

Definition decoded (fields : list (string * string)) : value :=
  VDict (dict_of fields).

(** A decoder that agrees with [json.loads] on the texts of the objects
    [known] and on text that is not JSON. *)
Definition loads_known (known : list (list (string * string))) (s : string)
  : result value :=
  match List.find (fun fields => String.eqb (json_object fields) s) known with
  | Some fields => Ok (decoded fields)
  | None => Raise JSONDecodeError
  end.

Definition good_url : string :=
  "https://us-central1-aiplatform.googleapis.com/x".
Definition evil_url : string := "https://evil.example.com".
Definition upper_url : string :=
  "wss://US-CENTRAL1-aiplatform.googleapis.com/ws".
Definition bracket_url : string := "https://[".
Definition no_host_url : string := "not a url".

Definition hs_good := [("service_url", good_url)].
Definition hs_evil := [("service_url", evil_url)].
Definition hs_token := [("bearer_token", "tok"); ("service_url", good_url)].
Definition hs_empty_token := [("bearer_token", ""); ("service_url", good_url)].
Definition hs_upper := [("bearer_token", "tok"); ("service_url", upper_url)].
Definition hs_bracket := [("service_url", bracket_url)].
Definition hs_no_host := [("service_url", no_host_url)].
Definition hs_no_url := [("bearer_token", "tok")].

Definition json_loads : string -> result value :=
  loads_known [hs_good; hs_evil; hs_token; hs_empty_token; hs_upper;
               hs_bracket; hs_no_host; hs_no_url].

(** CPython before 3.11.4 has no [_check_bracketed_host]. *)
Definition valid_bracketed_host (host : string) : bool := true.

(** [str] of [None]; the examples format no other value that is not a
    [str]. *)
Definition py_str (x : value) : string := "None".

Definition text (fields : list (string * string)) : WSMessage :=
  {| type := TEXT; data := json_object fields |}.

Definition us_central1 : Config :=
  {| GCP_PROJECT_ID := "";
     GCP_REGION := "us-central1";
     GOOGLE_APPLICATION_CREDENTIALS := None |}.

Definition close_msg : WSMessage := {| type := CLOSE; data := "" |}.

(** A client that sends nothing after the handshake. *)
Definition silent : WebSocket := {| incoming := []; send_limit := None |}.

(** An upstream that closes at once. *)
Definition closing : WebSocket :=
  {| incoming := [close_msg]; send_limit := None |}.

(** A host with the secret file of the hosting platform and no usable
    credentials; the upstream accepts the connection and closes. *)
Definition no_credentials : World :=
  {| path_exists := fun path => String.eqb path "/etc/secrets/googlekey.json";
     google_auth_default := fun _ _ => Raise DefaultCredentialsError;
     session_ws_connect := fun _ _ => Ok closing;
     ws_client := silent |}.

(** A first message that is not a text frame. *)
Definition binary_first : WSMessage := {| type := BINARY; data := "x" |}.


Definition handler := websocket_handler json_loads valid_bracketed_host py_str.

End examples.

(** ** Process start: the configuration read from the environment *)

Module startup.
Import Py server.

(** [str.isspace] on the code points below 256: U+0009..U+000D,
    U+001C..U+0020, U+0085 and U+00A0. *)
Definition is_space (c : ascii) : bool :=
  let n := nat_of_ascii c in
  ((9 <=? n)%nat && (n <=? 13)%nat) || ((28 <=? n)%nat && (n <=? 32)%nat)
  || (n =? 133)%nat || (n =? 160)%nat.

(** [s.lstrip()] *)
Fixpoint lstrip (s : string) : string :=
  match s with
  | EmptyString => EmptyString
  | String c s' => if is_space c then lstrip s' else s
  end.

(** [s.rstrip()] *)
Fixpoint rstrip (s : string) : string :=
  match s with
  | EmptyString => EmptyString
  | String c s' =>
      match rstrip s' with
      | EmptyString => if is_space c then EmptyString else String c EmptyString
      | r => String c r
      end
  end.

(** [s.strip()] *)
Definition strip (s : string) : string := rstrip (lstrip s).

(** A string that does not start with white space. *)
Definition starts_clean (s : string) : Prop :=
  match s with
  | String c _ => is_space c = false
  | EmptyString => True
  end.

(** [os.getenv(key, default)] *)
Definition os_getenv (env : gmap string string) (key fallback : string) : string :=
  default fallback (env !! key).

(** Lines 23-27: the configuration a process started in the environment
    [env] runs with.  A credentials path that is empty after stripping
    counts as not configured. *)
Definition load_config (env : gmap string string) : Config :=
  let _creds_path := strip (os_getenv env "GOOGLE_APPLICATION_CREDENTIALS" "") in
  {| GCP_PROJECT_ID := os_getenv env "GCP_PROJECT_ID" "";
     GCP_REGION := os_getenv env "GCP_REGION" "us-central1";
     GOOGLE_APPLICATION_CREDENTIALS :=
       if truthy_str (Some _creds_path) then Some _creds_path else None |}.

End startup.

(** ** The HTTP layer: [health_check], [root_router], [create_app] *)

Module http.
Import Py aiohttp server.

(** A request as the handlers see it: its method, path and headers, the
    outcome of the web socket upgrade ([ws_client.prepare(request)], which
    raises when the request is no valid upgrade) and the first message the
    client sends once upgraded. *)
Record Request := {
  method : string;
  path : string;
  headers : list (string * string);
  prepare : result unit;
  first_message : WSMessage
}.

(** What a request is answered with: [web.Response(text=..., status=...)]
    or the web socket response [ws_client] of a handler, or the error
    response of the router. *)
Inductive Response :=
| web_Response (text : string) (status : Z)
| ws_response
| router_error (status : Z).

(** [headers.get(key, default)] on a case-insensitive multi-dict: the value
    of the first header whose name matches. *)
Definition headers_get (h : list (string * string)) (key fallback : string)
  : string :=
  match List.find
          (fun kv => String.eqb (urllib_parse.lower kv.1) (urllib_parse.lower key))
          h with
  | Some kv => kv.2
  | None => fallback
  end.

(** The line feed character. *)
Definition newline : string := String (ascii_of_nat 10) EmptyString.

Definition health_check (request : Request) : M Response :=
  ret (web_Response ("OK" ++ newline) 200).

Section Routes.

Variable json_loads : string -> result value.
Variable valid_bracketed_host : string -> bool.
Variable py_str : value -> string.
Variable cfg : Config.
Variable w : World.

(** [websocket_handler(request)] from its first line: the upgrade of the
    request (lines 93-94) stands before the [try], so its exception leaves
    the handler; what follows is [server.websocket_handler] on the first
    message, and the handler returns [ws_client]. *)
Definition websocket_endpoint (request : Request) : M Response :=
  lift (prepare request);;
  websocket_handler json_loads valid_bracketed_host py_str cfg w
    (first_message request);;
  ret ws_response.

Definition root_router (request : Request) : M Response :=
  if String.eqb
       (urllib_parse.lower (headers_get (headers request) "Upgrade" ""))
       "websocket"
  then websocket_endpoint request
  else health_check request.

(** The handlers [create_app] registers. *)
Inductive Handler :=
| to_root_router
| to_health_check
| to_websocket_handler.

(** [create_app]: the routes added with [add_get], in order. *)
Definition create_app : list (string * Handler) :=
  [("/", to_root_router);
   ("/healthz", to_health_check);
   ("/ws", to_websocket_handler)].

(** Resolution of a request by the router: a path that is not registered
    is answered 404; [add_get] serves GET and HEAD, any other method on a
    registered path is answered 405. *)
Definition resolve (app : list (string * Handler)) (request : Request)
  : Handler + Z :=
  match List.find (fun route => String.eqb route.1 (path request)) app with
  | None => inr 404%Z
  | Some route =>
      if String.eqb (method request) "GET" || String.eqb (method request) "HEAD"
      then inl route.2
      else inr 405%Z
  end.

(** The application serving one request. *)
Definition serve (request : Request) : M Response :=
  match resolve create_app request with
  | inl to_root_router => root_router request
  | inl to_health_check => health_check request
  | inl to_websocket_handler => websocket_endpoint request
  | inr status => ret (router_error status)
  end.

End Routes.

End http.

(** ** Further observations *)

Module observe.
Import Py aiohttp server.

(** The messages a pump reads: those before the first close message. *)
Fixpoint before_close (inbox : list WSMessage) : list WSMessage :=
  match inbox with
  | [] => []
  | msg :: inbox' =>
      if stops_iteration (type msg) then [] else msg :: before_close inbox'
  end.

(** The frames a pump writes when no write fails. *)
Definition forwarded (inbox : list WSMessage) : list Frame :=
  map forward (List.filter is_data (before_close inbox)).

Definition is_close (e : Event) : bool :=
  match e with ws_client_close _ _ => true | _ => false end.

(** The number of events of a kind in a trace. *)
Definition count (kind : Event → bool) (t : list Event) : nat :=
  length (List.filter kind t).

(** Every close in the trace carries the policy-violation code. *)
Definition closes_with_1008 (t : list Event) : bool :=
  forallb
    (fun e => match e with
              | ws_client_close code _ => (code =? 1008)%Z
              | _ => true
              end) t.

(** The token the credentials hold once [generate_access_token] is done
    with them, when nothing raises. *)
Definition token_after (creds : Credentials) : result (option string) :=
  if valid creds then Ok (token creds) else refresh creds.



(** The trace of a session that passed validation and went on to connect:
    at most a credential resolution, then the connection attempt to [url],
    then at most the relay. *)
Definition connect_shape (url : value) (t : list Event) : Prop :=
  ∃ pre headers rest,
    t = (pre ++ ws_connect url headers :: rest)%list
    ∧ (pre = [] ∨ pre = [call_generate_access_token])
    ∧ (rest = [] ∨ ∃ to_server to_client, rest = [relayed to_server to_client]).


End observe.

(** ** More concrete sessions and requests *)

Module more_examples.
Import Py aiohttp server http examples.

Definition userinfo_url : string :=
  "wss://user:pw@US-CENTRAL1-aiplatform.googleapis.com:443/ws".
Definition bare_url : string := "us-central1-aiplatform.googleapis.com/ws".

Definition hs_empty_url := [("service_url", "")].
Definition hs_userinfo := [("service_url", userinfo_url)].
Definition hs_bare := [("service_url", bare_url)].

(** The JSON text [{"service_url":5}] and the [dict] it decodes to. *)
Definition number_url_text : string :=
  "{" ++ dq ++ "service_url" ++ dq ++ ":5}".
Definition number_url_dict : gmap string value :=
  {[ "service_url" := VInt 5 ]}.

(** A decoder that agrees with [json.loads] on the texts above, on those of
    [examples] used below and on text that is not JSON. *)
Definition json_loads (s : string) : result value :=
  if String.eqb s number_url_text then Ok (VDict number_url_dict)
  else loads_known [hs_empty_url; hs_userinfo; hs_bare; hs_good; hs_token] s.

(** Credentials that have expired and refresh to the token [fresh]. *)
Definition expired : Credentials :=
  {| valid := false; token := None; refresh := Ok (Some "fresh") |}.

(** A host with ambient credentials and no secret file; the upstream
    accepts the connection and closes, and so does the client. *)
Definition with_credentials : World :=
  {| path_exists := fun _ => false;
     google_auth_default := fun _ _ => Ok (expired, Some "project");
     session_ws_connect := fun _ _ => Ok closing;
     ws_client := closing |}.

Definition handler := websocket_handler json_loads valid_bracketed_host py_str.


(** An environment in which the credentials path is set. *)
Definition configured_environ : gmap string string :=
  {[ "GOOGLE_APPLICATION_CREDENTIALS" := "/srv/key.json" ]}.

End more_examples.

(** ** Proof tools *)

Import Py aiohttp server.

(** Unfolds the monad of the handler. *)
Ltac run :=
  unfold websocket_handler, authenticate_and_connect, connect_and_relay,
    proxy_bidirectional,
    try_except, emit, await, lift, get, ret, raise, start,
    mbind, M_bind, bind, mret, M_ret; simpl.

(** A fact on all 256 characters, by enumeration. *)
Ltac by_cases_on c :=
  destruct c as [[] [] [] [] [] [] [] []]; vm_compute; congruence.

(** * Properties *)

(** ** Facts on [urllib.parse] *)

Module urllib_facts.
Import urllib_parse.

#[local] Arguments String.append !s1 s2 : simpl nomatch.



Lemma host_char_safe c : host_char c = true → unsafe_char c = false.
Proof. by_cases_on c. Qed.


Lemma delim_safe c : netloc_delim c = true → unsafe_char c = false.
Proof. by_cases_on c. Qed.


Lemma host_char_not (sep : ascii) c :
  host_char sep = false → host_char c = true → Ascii.eqb c sep = false.
Proof.
  intros Hsep Hc. destruct (Ascii.eqb_spec c sep); [congruence | done].
Qed.


Lemma all_chars_absent (p : ascii → bool) (sep : ascii) (s : string) :
  (∀ c, p c = true → Ascii.eqb c sep = false) →
  all_chars p s = true → contains sep s = false.
Proof.
  intros Hp. induction s as [| c s IH]; simpl; [done |].
  intros [Hc Hs]%andb_prop. rewrite (Hp c Hc). by apply IH.
Qed.




Lemma all_chars_impl (p q : ascii → bool) (s : string) :
  (∀ c, p c = true → q c = true) →
  all_chars p s = true → all_chars q s = true.
Proof.
  intros Hpq. induction s as [| c s IH]; simpl; [done |].
  intros [Hc Hs]%andb_prop. by rewrite (Hpq c Hc), IH.
Qed.

Lemma remove_unsafe_app (s tail : string) :
  all_chars safe_char s = true →
  remove_unsafe (s +:+ tail) = s +:+ remove_unsafe tail.
Proof.
  induction s as [| c s IH]; simpl; [done |].
  intros [Hc Hs]%andb_prop. apply negb_true_iff in Hc. rewrite Hc.
  by rewrite IH.
Qed.

Lemma ends_host_remove_unsafe (tail : string) :
  ends_host tail = true → ends_host (remove_unsafe tail) = true.
Proof.
  destruct tail as [| c tail]; simpl; [done |]. intros Hc.
  by rewrite (delim_safe c Hc).
Qed.





Lemma plain_host_chars (host : string) :
  plain_host host = true → all_chars host_char host = true.
Proof. by destruct host. Qed.

Lemma plain_host_absent (sep : ascii) (host : string) :
  host_char sep = false → plain_host host = true → contains sep host = false.
Proof.
  intros Hsep Hhost. apply (all_chars_absent host_char).
  - intros c. by apply host_char_not.
  - by apply plain_host_chars.
Qed.



End urllib_facts.

Lemma urlparse_empty vbh :
  urllib_parse.urlparse vbh EmptyString
  = Ok {| urllib_parse.scheme := EmptyString;
          urllib_parse.netloc := EmptyString;
          urllib_parse.rest := EmptyString |}.
Proof. reflexivity. Qed.


(** ** Facts on [generate_access_token] *)

(** Path detection returns, leaves the trace alone and writes at most the
    credentials variable. *)
Lemma detect_credentials_path_spec (cfg : Config) (w : World) (st : State) :
  ∃ env', detect_credentials_path cfg w st
          = (Returned tt, {| environ := env'; trace := trace st |})
        ∧ ∀ k, k ≠ "GOOGLE_APPLICATION_CREDENTIALS" →
               env' !! k = environ st !! k.
Proof.
  unfold detect_credentials_path, setenv, ret. destruct st as [env t]. simpl.
  repeat case_match; simplify_eq;
    eexists; (split; [reflexivity |]); intros k Hk; simpl;
    try reflexivity; by rewrite lookup_insert_ne.
Qed.

(** The environment it leaves depends on the environment alone. *)
Lemma detect_credentials_path_trace (cfg : Config) (w : World) (st : State) :
  detect_credentials_path cfg w st
  = (Returned tt,
     {| environ := environ (detect_credentials_path cfg w (start (environ st))).2;
        trace := trace st |}).
Proof.
  unfold detect_credentials_path, setenv, ret, start. destruct st as [env t].
  simpl. repeat case_match; simplify_eq; reflexivity.
Qed.

(** The body of [generate_access_token] is wrapped in a handler that
    returns [None]: the call always returns, in the state path detection
    leaves. *)
Lemma generate_access_token_returns (cfg : Config) (w : World) (st : State) :
  ∃ tok, generate_access_token cfg w st
         = (Returned tok, (detect_credentials_path cfg w st).2).
Proof.
  destruct (detect_credentials_path_spec cfg w st) as (env' & Hd & _).
  unfold generate_access_token, get_credentials, try_except, getenv, lift,
    ret, raise, mbind, M_bind, bind, mret, M_ret.
  rewrite Hd. simpl.
  repeat case_match; simplify_eq; eauto.
Qed.

Lemma generate_access_token_failure (cfg : Config) (w : World) (st : State) :
  authentication_fails w (environ (detect_credentials_path cfg w st).2) = true →
  generate_access_token cfg w st
  = (Returned None, (detect_credentials_path cfg w st).2).
Proof.
  destruct (detect_credentials_path_spec cfg w st) as (env' & Hd & _).
  unfold authentication_fails, generate_access_token, get_credentials,
    try_except, getenv, lift, ret, raise, mbind, M_bind, bind, mret, M_ret.
  rewrite Hd. simpl. intros Hfail.
  repeat case_match; simplify_eq; simpl in *; try done.
Qed.

Section Sessions.

Variable json_loads : string -> result value.
Variable valid_bracketed_host : string -> bool.
Variable py_str : value -> string.
Variable cfg : Config.
Variable w : World.

Local Abbreviation handler :=
  (websocket_handler json_loads valid_bracketed_host py_str cfg w).

(** *** The stages of a session *)




(** A handshake that passes validation reaches step 2 with the token and
    the URL of the client. *)
Lemma handler_validated
    (msg : WSMessage) (st : State) (d : gmap string value)
    (url : string) (parsed : urllib_parse.ParseResult) :
  type msg = TEXT →
  json_loads (data msg) = Ok (VDict d) →
  d !! "service_url" = Some (VStr url) →
  urllib_parse.urlparse valid_bracketed_host url = Ok parsed →
  urllib_parse.hostname parsed = Some (allowed_host cfg) →
  handler msg st
  = try_except
      (authenticate_and_connect py_str cfg w (VStr url)
         (default VNone (d !! "bearer_token")))
      (fun e => ret tt) st.
Proof.
  intros Htype Hjson Hurl Hparse Hhost.
  unfold websocket_handler, try_except, lift, get, ret, raise,
    mbind, M_bind, bind, mret, M_ret.
  rewrite Htype, Hjson. simpl. rewrite Hurl. simpl.
  destruct url as [|c url'].
  - rewrite urlparse_empty in Hparse. injection Hparse as <-. discriminate.
  - simpl (negb _). cbv iota. unfold urlparse_hostname.
    rewrite Hparse, Hhost. simpl.
    rewrite bool_decide_eq_true_2 by reflexivity. reflexivity.
Qed.

(** A destination that is a non-empty string whose hostname is not the
    allowed host ends the session with the rejection close. *)
Lemma handler_host_mismatch
    (msg : WSMessage) (st : State) (d : gmap string value)
    (url : string) (parsed : urllib_parse.ParseResult) :
  type msg = TEXT →
  json_loads (data msg) = Ok (VDict d) →
  d !! "service_url" = Some (VStr url) →
  url ≠ EmptyString →
  urllib_parse.urlparse valid_bracketed_host url = Ok parsed →
  urllib_parse.hostname parsed ≠ Some (allowed_host cfg) →
  handler msg st
  = (Returned tt,
     {| environ := environ st;
        trace := trace st ++ [ws_client_close 1008 "Unauthorized Service URL"] |}).
Proof.
  intros Htype Hjson Hurl Hne Hparse Hhost.
  destruct url as [|c url']; [done |].
  unfold websocket_handler, try_except, lift, get, ret, raise, emit,
    mbind, M_bind, bind, mret, M_ret.
  rewrite Htype, Hjson. simpl. rewrite Hurl. cbn [from_option id].
  simpl (negb _). cbv iota. unfold urlparse_hostname. rewrite Hparse. simpl.
  by rewrite bool_decide_eq_false_2.
Qed.


(** C7.  A handshake whose payload has no destination URL field is rejected
    with the reason "Service URL missing", and credential resolution is not
    attempted. *)
Theorem missing_service_url_rejected
    (msg : WSMessage) (env : gmap string string) (d : gmap string value) :
  type msg = TEXT →
  json_loads (data msg) = Ok (VDict d) →
  d !! "service_url" = None →
  handler msg (start env)
  = (Returned tt,
     {| environ := env;
        trace := [ws_client_close 1008 "Service URL missing"] |})
  ∧ resolves_credential (trace (handler msg (start env)).2) = false.
Proof.
  intros Htype Hjson Hurl.
  assert (Hrun : handler msg (start env)
    = (Returned tt,
       {| environ := env;
          trace := [ws_client_close 1008 "Service URL missing"] |})).
  { run. rewrite Htype, Hjson. simpl. rewrite Hurl. reflexivity. }
  split; [exact Hrun | now rewrite Hrun].
Qed.

(** C6.  When credential resolution is invoked (the handshake passes
    validation and carries no usable token) and discovery or refresh fails,
    [generate_access_token] returns [None], the session is rejected with the
    reason "Auth failed", and no outbound connection is attempted. *)
Theorem auth_failure_rejected
    (msg : WSMessage) (env : gmap string string) (d : gmap string value)
    (url : string) (parsed : urllib_parse.ParseResult) :
  type msg = TEXT →
  json_loads (data msg) = Ok (VDict d) →
  d !! "service_url" = Some (VStr url) →
  urllib_parse.urlparse valid_bracketed_host url = Ok parsed →
  urllib_parse.hostname parsed = Some (allowed_host cfg) →
  truthy (default VNone (d !! "bearer_token")) = false →
  authentication_fails w
    (environ (detect_credentials_path cfg w (start env)).2) = true →
  (generate_access_token cfg w (start env)).1 = Returned None
  ∧ (handler msg (start env)).1 = Returned tt
  ∧ trace (handler msg (start env)).2
    = [call_generate_access_token; ws_client_close 1008 "Auth failed"]
  ∧ attempts_connection (trace (handler msg (start env)).2) = false.
Proof.
  intros Htype Hjson Hurl Hparse Hhost Htok Hfail.
  split.
  { by rewrite generate_access_token_failure. }
  rewrite (handler_validated msg (start env) d url parsed) by assumption.
  unfold authenticate_and_connect, try_except, emit,
    mbind, M_bind, bind, mret, M_ret.
  rewrite Htok. simpl.
  rewrite generate_access_token_failure;
    rewrite detect_credentials_path_trace; simpl; done.
Qed.



(** C8, as the code has it.  When the first message is not a text frame the
    handler closes the client socket with code 1008 and an empty reason and
    does nothing else.  When the text is not JSON, or is JSON but not an
    object, the handler stops.  In none of these cases is a credential
    resolved or an outbound connection attempted. *)
Theorem malformed_handshake_stops
    (msg : WSMessage) (env : gmap string string) :
  type msg ≠ TEXT
  ∨ (∃ e, json_loads (data msg) = Raise e)
  ∨ (∃ v, json_loads (data msg) = Ok v ∧ ∀ d, v ≠ VDict d) →
  (handler msg (start env)).1 = Returned tt
  ∧ resolves_credential (trace (handler msg (start env)).2) = false
  ∧ attempts_connection (trace (handler msg (start env)).2) = false
  ∧ (type msg ≠ TEXT →
     trace (handler msg (start env)).2 = [ws_client_close 1008 ""]).
Proof.
  unfold websocket_handler, try_except, lift, get, ret, raise, emit,
    mbind, M_bind, bind, mret, M_ret.
  intros [Htype | [[e He] | (v & Hv & Hd)]].
  - rewrite bool_decide_eq_false_2 by done. by simpl.
  - case_bool_decide; simpl; [| done]. rewrite He. by simpl.
  - case_bool_decide; simpl; [| done]. rewrite Hv. simpl.
    destruct v; simpl; try done. by destruct (Hd d).
Qed.



End Sessions.


(** ** The relay *)

(** A pump that met no close message has not finished. *)
Lemma pump_finished_close (limit : option nat) (inbox : list WSMessage) :
  (pump limit inbox).2 = Finished →
  existsb (fun msg => stops_iteration (type msg)) inbox = true.
Proof.
  revert limit. induction inbox as [| msg inbox IH]; intros limit; simpl.
  - discriminate.
  - destruct (stops_iteration (type msg)) eqn:Hstop; [done |]. simpl.
    destruct (type msg); try discriminate; try (by apply IH);
      destruct limit as [[| n] |]; simpl; try discriminate;
      destruct (pump _ inbox) as [sent st] eqn:Hp; simpl; intros ->;
      eapply IH; by rewrite Hp.
Qed.



(** C3, as the code has it.  The relay run returns normally exactly when
    both pumps have finished, and a pump finishes only on a close message of
    its own side: when one pump has finished and the other is blocked on a
    read, the run stays pending. *)
Theorem relay_waits_for_both_pumps
    (ws_client ws_server : WebSocket) (st : State) :
  ((proxy_bidirectional ws_client ws_server st).1 = Returned tt
   ↔ (client_to_server ws_client ws_server).2 = Finished
     ∧ (server_to_client ws_client ws_server).2 = Finished)
  ∧ ((proxy_bidirectional ws_client ws_server st).1 = Returned tt →
     receives_close ws_client = true ∧ receives_close ws_server = true)
  ∧ ((server_to_client ws_client ws_server).2 = Finished →
     (client_to_server ws_client ws_server).2 = Blocked →
     (proxy_bidirectional ws_client ws_server st).1 = Pending)
  ∧ ((client_to_server ws_client ws_server).2 = Finished →
     (server_to_client ws_client ws_server).2 = Blocked →
     (proxy_bidirectional ws_client ws_server st).1 = Pending).
Proof.
  assert (Hiff :
    (proxy_bidirectional ws_client ws_server st).1 = Returned tt
    ↔ (client_to_server ws_client ws_server).2 = Finished
      ∧ (server_to_client ws_client ws_server).2 = Finished).
  { unfold proxy_bidirectional, emit, await, mbind, M_bind, bind.
    destruct (client_to_server _ _) as [to_server a].
    destruct (server_to_client _ _) as [to_client b]. simpl.
    destruct a, b; simpl; split; try done; intros [? ?]; done. }
  split; [exact Hiff |]. split; [| split].
  - intros [Ha Hb]%Hiff. unfold receives_close. split.
    + by apply (pump_finished_close (send_limit ws_server)).
    + by apply (pump_finished_close (send_limit ws_client)).
  - unfold proxy_bidirectional, emit, await, mbind, M_bind, bind.
    destruct (client_to_server _ _) as [to_server a].
    destruct (server_to_client _ _) as [to_client b]. simpl.
    by intros -> ->.
  - unfold proxy_bidirectional, emit, await, mbind, M_bind, bind.
    destruct (client_to_server _ _) as [to_server a].
    destruct (server_to_client _ _) as [to_client b]. simpl.
    by intros -> ->.
Qed.

(** ** Concrete sessions

    The sessions below run in the region [us-central1], on a host that has
    the secret file of the hosting platform but no usable credentials, with
    a client that is silent after the handshake and an upstream that closes
    at once. *)

Section Concrete.
Import examples.

Local Abbreviation session fields :=
  (handler us_central1 no_credentials (text fields) (start ∅)).




(** C3 as stated fails: the upstream has closed and its pump has finished,
    the client sends nothing more, and the relay run never returns. *)
Lemma upstream_close_leaves_relay_pending :
  (server_to_client silent closing).2 = Finished
  ∧ (client_to_server silent closing).2 = Blocked
  ∧ (proxy_bidirectional silent closing (start ∅)).1 = Pending.
Proof. repeat split; vm_compute; reflexivity. Qed.




Lemma auth_failure_rejected_witness :
  (generate_access_token us_central1 no_credentials (start ∅)).1
  = Returned None
  ∧ (session hs_good).1 = Returned tt
  ∧ trace (session hs_good).2
    = [call_generate_access_token; ws_client_close 1008 "Auth failed"]
  ∧ attempts_connection (trace (session hs_good).2) = false.
Proof.
  apply (auth_failure_rejected json_loads valid_bracketed_host py_str
           us_central1 no_credentials (text hs_good) ∅ (dict_of hs_good)
           good_url
           {| urllib_parse.scheme := "https";
              urllib_parse.netloc := "us-central1-aiplatform.googleapis.com";
              urllib_parse.rest := "/x" |});
    vm_compute; reflexivity.
Defined.

Lemma missing_service_url_rejected_witness :
  session hs_no_url
  = (Returned tt,
     {| environ := ∅;
        trace := [ws_client_close 1008 "Service URL missing"] |})
  ∧ resolves_credential (trace (session hs_no_url).2) = false.
Proof.
  apply (missing_service_url_rejected json_loads valid_bracketed_host py_str
           us_central1 no_credentials (text hs_no_url) ∅ (dict_of hs_no_url));
    vm_compute; reflexivity.
Defined.

Lemma malformed_handshake_stops_witness :
  (handler us_central1 no_credentials binary_first (start ∅)).1 = Returned tt
  ∧ resolves_credential
      (trace (handler us_central1 no_credentials binary_first (start ∅)).2)
    = false
  ∧ attempts_connection
      (trace (handler us_central1 no_credentials binary_first (start ∅)).2)
    = false
  ∧ (type binary_first ≠ TEXT →
     trace (handler us_central1 no_credentials binary_first (start ∅)).2
     = [ws_client_close 1008 ""]).
Proof.
  apply (malformed_handshake_stops json_loads valid_bracketed_host py_str
           us_central1 no_credentials binary_first ∅).
  left. discriminate.
Defined.

(** C8 as stated fails: a first frame that is not text is closed with code
    1008 and an empty reason, which is none of the rejection reasons. *)
Lemma binary_first_frame_closed_without_reason :
  type binary_first ≠ TEXT
  ∧ trace (handler us_central1 no_credentials binary_first (start ∅)).2
    = [ws_client_close 1008 ""]
  ∧ forallb
      (fun reason =>
         negb (rejected_with reason
                 (trace (handler us_central1 no_credentials binary_first
                           (start ∅)).2)))
      rejection_reasons = true.
Proof. repeat split; try (vm_compute; reflexivity). discriminate. Qed.





End Concrete.

(** * Further properties *)

(** ** The pumps *)

Section Pumps.
Import observe.

Lemma pump_unlimited (inbox : list WSMessage) :
  pump None inbox
  = (forwarded inbox,
     if existsb (fun msg => stops_iteration (type msg)) inbox
     then Finished else Blocked).
Proof.
  unfold forwarded. induction inbox as [| [ty payload] inbox IH]; [done |].
  cbn [pump before_close existsb type data].
  destruct ty; cbn [stops_iteration orb fmap option_fmap option_map];
    try reflexivity; rewrite IH; reflexivity.
Qed.

Lemma pump_limited (n : nat) (inbox : list WSMessage) :
  pump (Some n) inbox
  = (take n (forwarded inbox),
     if (n <? length (forwarded inbox))%nat
     then Failed ConnectionResetError
     else (pump None inbox).2).
Proof.
  revert n. induction inbox as [| [ty payload] inbox IH]; intros n.
  - by destruct n.
  - rewrite pump_unlimited. unfold forwarded.
    cbn [pump before_close existsb type data].
    destruct ty; cbn [stops_iteration orb snd];
      try (by destruct n);
      try (rewrite IH, pump_unlimited; reflexivity);
      (destruct n as [| n]; [reflexivity |]);
      cbn [fmap option_fmap option_map pred];
      rewrite IH, pump_unlimited; reflexivity.
Qed.

(** X1.  With a peer that accepts every write, a pump writes one frame for
    each text or binary message received before the first close message, in
    order, and nothing else: control messages are dropped and nothing that
    arrives after the close is forwarded.  It finishes when a close message
    arrives and stays blocked otherwise. *)
Theorem pump_forwards_data_before_close
    (inbox other : list WSMessage) (limit : option nat) :
  client_to_server
    {| incoming := inbox; send_limit := limit |}
    {| incoming := other; send_limit := None |}
  = (forwarded inbox,
     if receives_close {| incoming := inbox; send_limit := limit |}
     then Finished else Blocked)
  ∧ server_to_client
      {| incoming := other; send_limit := None |}
      {| incoming := inbox; send_limit := limit |}
    = (forwarded inbox,
       if receives_close {| incoming := inbox; send_limit := limit |}
       then Finished else Blocked).
Proof.
  unfold client_to_server, server_to_client, receives_close. cbn [incoming send_limit].
  split; apply pump_unlimited.
Qed.

(** X2.  When the peer accepts only [n] writes, a pump writes the first [n]
    of the frames it would have written and fails with
    [ConnectionResetError] on the next one; when [n] writes are enough it
    behaves as with an unlimited peer.  After a failed write nothing more is
    written. *)
Theorem pump_stops_at_failed_write
    (n : nat) (inbox other : list WSMessage) (limit : option nat) :
  client_to_server
    {| incoming := inbox; send_limit := limit |}
    {| incoming := other; send_limit := Some n |}
  = (take n (forwarded inbox),
     if (n <? length (forwarded inbox))%nat
     then Failed ConnectionResetError
     else if receives_close {| incoming := inbox; send_limit := limit |}
          then Finished else Blocked)
  ∧ server_to_client
      {| incoming := other; send_limit := Some n |}
      {| incoming := inbox; send_limit := limit |}
    = (take n (forwarded inbox),
       if (n <? length (forwarded inbox))%nat
       then Failed ConnectionResetError
       else if receives_close {| incoming := inbox; send_limit := limit |}
            then Finished else Blocked).
Proof.
  unfold client_to_server, server_to_client, receives_close.
  cbn [incoming send_limit].
  rewrite pump_limited, pump_unlimited. split; reflexivity.
Qed.

Lemma pump_status (limit : option nat) (inbox : list WSMessage) :
  (pump limit inbox).2
  = if accepts limit (length (forwarded inbox))
    then (if existsb (fun msg => stops_iteration (type msg)) inbox
          then Finished else Blocked)
    else Failed ConnectionResetError.
Proof.
  destruct limit as [n |]; cbn [accepts].
  - rewrite pump_limited, pump_unlimited. cbn [snd].
    destruct (Nat.ltb_spec n (length (forwarded inbox)));
      destruct (Nat.leb_spec (length (forwarded inbox)) n); (done || lia).
  - by rewrite pump_unlimited.
Qed.

(** X3.  The outcome of a relay run in terms of what arrives and what the
    sockets accept: it raises [ConnectionResetError] exactly when one side
    does not accept all the frames forwarded to it; it returns exactly when
    both sides accept them and a close message arrives on each side; in
    every other case it stays pending.  It records one [relayed] event and
    leaves [os.environ] alone. *)
Theorem relay_outcome (ws_client ws_server : WebSocket) (st : State) :
  let writes_ok :=
    accepts (send_limit ws_server) (length (forwarded (incoming ws_client)))
    && accepts (send_limit ws_client) (length (forwarded (incoming ws_server))) in
  let closed := receives_close ws_client && receives_close ws_server in
  (proxy_bidirectional ws_client ws_server st).1
  = (if writes_ok
     then (if closed then Returned tt else Pending)
     else Raised ConnectionResetError)
  ∧ environ (proxy_bidirectional ws_client ws_server st).2 = environ st
  ∧ ∃ to_server to_client,
      trace (proxy_bidirectional ws_client ws_server st).2
      = (trace st ++ [relayed to_server to_client])%list.
Proof.
  cbv zeta. unfold proxy_bidirectional, emit, await, mbind, M_bind, bind.
  pose proof (pump_status (send_limit ws_server) (incoming ws_client)) as Ha.
  pose proof (pump_status (send_limit ws_client) (incoming ws_server)) as Hb.
  unfold client_to_server, server_to_client, receives_close.
  destruct (pump (send_limit ws_server) (incoming ws_client)) as [to_server a].
  destruct (pump (send_limit ws_client) (incoming ws_server)) as [to_client b].
  cbn [fst snd environ trace] in *. subst a b.
  split; [| split; [reflexivity | by exists to_server, to_client]].
  destruct (accepts (send_limit ws_server) _),
           (accepts (send_limit ws_client) _);
    repeat (destruct (existsb _ _)); reflexivity.
Qed.

End Pumps.

(** ** Credential resolution *)

Section Credentials.
Import observe.

Variable cfg : Config.
Variable w : World.

Lemma generate_access_token_success (st : State) creds project :
  google_auth_default w scopes
    (environ (detect_credentials_path cfg w st).2) = Ok (creds, project) →
  generate_access_token cfg w st
  = (Returned (match token_after creds with Ok t => t | Raise _ => None end),
     (detect_credentials_path cfg w st).2).
Proof.
  destruct (detect_credentials_path_spec cfg w st) as (env' & Hd & _).
  unfold token_after, generate_access_token, get_credentials,
    try_except, getenv, lift, ret, raise, mbind, M_bind, bind, mret, M_ret.
  rewrite Hd. cbn [fst snd environ]. intros ->. cbn.
  destruct (valid creds); cbn; [done |]. by destruct (refresh creds).
Qed.

(** X4.  [generate_access_token] never raises: whatever discovery and
    refresh do, the call returns (a token or [None]), records nothing in the
    trace and changes no variable of [os.environ] other than
    [GOOGLE_APPLICATION_CREDENTIALS]. *)
Theorem generate_access_token_never_raises (st : State) :
  ∃ tok env',
    generate_access_token cfg w st
    = (Returned tok, {| environ := env'; trace := trace st |})
    ∧ ∀ k, k ≠ "GOOGLE_APPLICATION_CREDENTIALS" → env' !! k = environ st !! k.
Proof.
  destruct (generate_access_token_returns cfg w st) as [tok ->].
  destruct (detect_credentials_path_spec cfg w st) as (env' & -> & He).
  by exists tok, env'.
Qed.

(** X5.  The order of the credential sources, whatever discovery does
    afterwards: a configured, non-empty path is written to
    [GOOGLE_APPLICATION_CREDENTIALS] without looking at the file system;
    without one, the secret file of the hosting platform is used when it
    exists; otherwise [os.environ] is left as it is. *)
Theorem credential_source_order (st : State) :
  (∀ p, GOOGLE_APPLICATION_CREDENTIALS cfg = Some p → p ≠ EmptyString →
        environ (generate_access_token cfg w st).2
        = <[ "GOOGLE_APPLICATION_CREDENTIALS" := p ]> (environ st))
  ∧ (truthy_str (GOOGLE_APPLICATION_CREDENTIALS cfg) = false →
     path_exists w "/etc/secrets/googlekey.json" = true →
     environ (generate_access_token cfg w st).2
     = <[ "GOOGLE_APPLICATION_CREDENTIALS" := "/etc/secrets/googlekey.json" ]>
         (environ st))
  ∧ (truthy_str (GOOGLE_APPLICATION_CREDENTIALS cfg) = false →
     path_exists w "/etc/secrets/googlekey.json" = false →
     environ (generate_access_token cfg w st).2 = environ st).
Proof.
  destruct (generate_access_token_returns cfg w st) as [tok ->]. cbn [snd].
  unfold detect_credentials_path, setenv, ret.
  split; [| split].
  - intros p -> Hp. destruct p; [done |]. reflexivity.
  - intros -> ->. reflexivity.
  - intros Hcfg ->. rewrite Hcfg. cbn.
    destruct (GOOGLE_APPLICATION_CREDENTIALS cfg) as [p |]; [| done].
    by rewrite Hcfg.
Qed.

(** X6.  Resolving a credential a second time leaves [os.environ] as the
    first resolution left it: every resolution writes the same value. *)
Theorem credential_resolution_idempotent (st : State) :
  environ (generate_access_token cfg w (generate_access_token cfg w st).2).2
  = environ (generate_access_token cfg w st).2.
Proof.
  destruct (generate_access_token_returns cfg w st) as [tok ->]. cbn [snd].
  destruct (generate_access_token_returns cfg w
              (detect_credentials_path cfg w st).2) as [tok' ->]. cbn [snd].
  unfold detect_credentials_path, setenv, ret.
  repeat case_match; simplify_eq; cbn; try done; by rewrite insert_insert_eq.
Qed.

End Credentials.

(** ** Sessions *)

Section MoreSessions.
Import observe.

Variable json_loads : string -> result value.
Variable valid_bracketed_host : string -> bool.
Variable py_str : value -> string.
Variable cfg : Config.
Variable w : World.

Local Abbreviation handler :=
  (websocket_handler json_loads valid_bracketed_host py_str cfg w).

(** The upstream connection is attempted with the URL and the token given,
    and followed by the relay when it succeeds. *)
Lemma connect_and_relay_shape (url tok : value) (st : State) :
  ∃ o rest,
    (connect_and_relay py_str w url tok st).1 = o
    ∧ trace (connect_and_relay py_str w url tok st).2
      = (trace st ++
         ws_connect url
           [("Content-Type", "application/json");
            ("Authorization", "Bearer " +:+ format_value py_str tok)]
         :: rest)%list
    ∧ (rest = [] ∨ ∃ to_server to_client, rest = [relayed to_server to_client]).
Proof.
  run. destruct (session_ws_connect w url _) as [ws_server | e]; simpl.
  - destruct (client_to_server _ _) as [to_server a].
    destruct (server_to_client _ _) as [to_client b]. simpl.
    eexists _, [relayed to_server to_client].
    rewrite <- app_assoc.
    split; [reflexivity | split; [reflexivity | right; eauto]].
  - eexists _, []. split; [reflexivity | split; [reflexivity | by left]].
Qed.

Lemma authenticate_and_connect_shape (url tok : value) (st : State) :
  ∃ t,
    trace (authenticate_and_connect py_str cfg w url tok st).2
    = (trace st ++ t)%list
    ∧ (((authenticate_and_connect py_str cfg w url tok st).1 = Returned tt
        ∧ t = [call_generate_access_token; ws_client_close 1008 "Auth failed"])
       ∨ connect_shape url t).
Proof.
  unfold authenticate_and_connect.
  destruct (truthy tok); cbn [negb].
  - destruct (connect_and_relay_shape url tok st) as (o & rest & _ & -> & Hrest).
    eexists. split; [reflexivity |]. right.
    eexists [], _, rest. split; [reflexivity | split; [by left | done]].
  - unfold emit, mbind, M_bind, bind. cbn [fst snd environ trace].
    destruct (generate_access_token_returns cfg w
      {| environ := environ st; trace := trace st ++ [call_generate_access_token] |})
      as [tk ->].
    rewrite detect_credentials_path_trace. cbn [fst snd environ trace].
    destruct (truthy_str tk); cbn [negb].
    + match goal with |- context [connect_and_relay ?p ?w ?u ?k ?s] =>
        destruct (connect_and_relay_shape u k s) as (o & rest & _ & -> & Hrest) end.
      cbn [trace]. rewrite <- app_assoc.
      eexists. split; [reflexivity |]. right.
      eexists [call_generate_access_token], _, rest.
      split; [reflexivity | split; [by right | done]].
    + cbn [fst snd trace]. rewrite <- app_assoc.
      eexists. split; [reflexivity |]. by left.
Qed.

(** What a session can leave in the trace. *)
Lemma handler_shape (msg : WSMessage) (env : gmap string string) :
  ((handler msg (start env)).1 = Returned tt
   ∧ (trace (handler msg (start env)).2 = []
      ∨ (∃ reason,
           trace (handler msg (start env)).2 = [ws_client_close 1008 reason])
      ∨ trace (handler msg (start env)).2
        = [call_generate_access_token; ws_client_close 1008 "Auth failed"]))
  ∨ (∃ u parsed,
       urllib_parse.urlparse valid_bracketed_host u = Ok parsed
       ∧ urllib_parse.hostname parsed = Some (allowed_host cfg)
       ∧ connect_shape (VStr u) (trace (handler msg (start env)).2)).
Proof.
  unfold websocket_handler, try_except, lift, get, ret, raise, emit,
    mbind, M_bind, bind, mret, M_ret.
  case_bool_decide; cbn; [| left; eauto].
  destruct (json_loads _) as [v | e]; cbn; [| left; eauto].
  destruct v; cbn; try (left; by eauto).
  destruct (truthy _) eqn:Htruthy; cbn; [| left; eauto].
  destruct (urlparse_hostname _ _) as [h | e] eqn:Hparse; cbn; [| left; eauto].
  case_bool_decide as Hhost; cbn; [| left; eauto].
  unfold urlparse_hostname in Hparse.
  destruct (default VNone (d !! "service_url")) as [| | | | u | |] eqn:Hv;
    try (rewrite Htruthy in Hparse; discriminate).
  destruct (urllib_parse.urlparse valid_bracketed_host u) as [parsed | e]
    eqn:Hu; [| discriminate].
  injection Hparse as <-.
  destruct (authenticate_and_connect_shape (VStr u)
              (default VNone (d !! "bearer_token")) (start env))
    as (t & Ht & Hshape).
  cbn [trace start app] in Ht.
  destruct (authenticate_and_connect _ _ _ _ _ _) as [o st'] eqn:Hrun.
  cbn [fst snd] in *.
  destruct Hshape as [[-> ->] | Hshape].
  - left. cbn. eauto.
  - right. exists u, parsed. repeat split; try done.
    destruct o; cbn; by rewrite Ht.
Qed.

(** X7.  The server only ever connects to the allowed host: in every
    session, whatever the client sends and whatever the surroundings do, an
    upstream connection is attempted only to a URL string whose hostname, as
    [urlparse] extracts it, is the allowed host. *)
Theorem only_allowed_host_connected
    (msg : WSMessage) (env : gmap string string)
    (url : value) (headers : list (string * string)) :
  In (ws_connect url headers) (trace (handler msg (start env)).2) →
  ∃ u parsed,
    url = VStr u
    ∧ urllib_parse.urlparse valid_bracketed_host u = Ok parsed
    ∧ urllib_parse.hostname parsed = Some (allowed_host cfg).
Proof.
  intros Hin.
  destruct (handler_shape msg env)
    as [[_ [Ht | [[r Ht] | Ht]]] | (u & parsed & Hu & Hh & Hshape)].
  - rewrite Ht in Hin. destruct Hin.
  - rewrite Ht in Hin. destruct Hin as [? | []]; discriminate.
  - rewrite Ht in Hin. destruct Hin as [? | [? | []]]; discriminate.
  - exists u, parsed. repeat split; try done.
    destruct Hshape as (pre & hd & rest & Ht & Hpre & Hrest).
    rewrite Ht in Hin. apply in_app_or in Hin as [Hin | [Hin | Hin]].
    + destruct Hpre as [-> | ->]; [destruct Hin |].
      destruct Hin as [? | []]; discriminate.
    + congruence.
    + destruct Hrest as [-> | (a & b & ->)]; [destruct Hin |].
      destruct Hin as [? | []]; discriminate.
Qed.

(** X8.  A session resolves a credential at most once and attempts the
    upstream connection at most once: there is no retry. *)
Theorem single_attempt (msg : WSMessage) (env : gmap string string) :
  (count is_token_call (trace (handler msg (start env)).2) <= 1)%nat
  ∧ (count is_connect (trace (handler msg (start env)).2) <= 1)%nat.
Proof.
  destruct (handler_shape msg env)
    as [[_ [Ht | [[r Ht] | Ht]]] | (u & parsed & _ & _ & Hshape)];
    try (rewrite Ht; cbn; lia).
  destruct Hshape as (pre & hd & rest & -> & [-> | ->] & [-> | (a & b & ->)]);
    cbn; lia.
Qed.

(** X9.  The handler closes the client socket at most once, always with the
    policy-violation code 1008, and never in a session in which it attempts
    the upstream connection. *)
Theorem rejection_excludes_connection
    (msg : WSMessage) (env : gmap string string) :
  (count is_close (trace (handler msg (start env)).2) <= 1)%nat
  ∧ closes_with_1008 (trace (handler msg (start env)).2) = true
  ∧ (count is_close (trace (handler msg (start env)).2)
     + count is_connect (trace (handler msg (start env)).2) <= 1)%nat.
Proof.
  destruct (handler_shape msg env)
    as [[_ [Ht | [[r Ht] | Ht]]] | (u & parsed & _ & _ & Hshape)];
    try (rewrite Ht; cbn; repeat split; (lia || reflexivity)).
  destruct Hshape as (pre & hd & rest & -> & [-> | ->] & [-> | (a & b & ->)]);
    cbn; repeat split; (lia || reflexivity).
Qed.


(** X11.  A destination that is present but false as a Python value (the
    empty string, [null], [0], [false], an empty array or object) is
    treated like a missing one: the session is rejected with the reason
    "Service URL missing" and nothing else happens. *)
Theorem false_service_url_rejected
    (msg : WSMessage) (env : gmap string string) (d : gmap string value)
    (v : value) :
  type msg = TEXT →
  json_loads (data msg) = Ok (VDict d) →
  d !! "service_url" = Some v →
  truthy v = false →
  handler msg (start env)
  = (Returned tt,
     {| environ := env;
        trace := [ws_client_close 1008 "Service URL missing"] |}).
Proof.
  intros Htype Hjson Hurl Hv. run.
  rewrite Htype, Hjson. simpl. rewrite Hurl. simpl. by rewrite Hv.
Qed.

(** X12.  A destination that is true as a Python value but is not a string
    (a number, [true], a non-empty array or object) makes [urlparse] raise:
    the handler stops without closing the client socket with a reason,
    without resolving a credential and without connecting. *)
Theorem non_string_service_url_stops
    (msg : WSMessage) (env : gmap string string) (d : gmap string value)
    (v : value) :
  type msg = TEXT →
  json_loads (data msg) = Ok (VDict d) →
  d !! "service_url" = Some v →
  truthy v = true →
  (∀ s, v ≠ VStr s) →
  handler msg (start env) = (Returned tt, {| environ := env; trace := [] |}).
Proof.
  intros Htype Hjson Hurl Hv Hstr. run.
  rewrite Htype, Hjson. simpl. rewrite Hurl. simpl. rewrite Hv. simpl.
  destruct v; simpl in *; try done; try (by rewrite Hv).
  by destruct (Hstr s).
Qed.


(** X14.  The token the server resolves is the one it forwards: when the
    client sends no usable token, the destination passes validation and
    discovery yields credentials, the Authorization header of the upstream
    connection is "Bearer " followed by the token of the credentials when
    they are valid, and by the refreshed token when they are not. *)
Theorem server_token_forwarded
    (msg : WSMessage) (env : gmap string string) (d : gmap string value)
    (url : string) (parsed : urllib_parse.ParseResult)
    (creds : Credentials) (project : option string) (tok : string) :
  type msg = TEXT →
  json_loads (data msg) = Ok (VDict d) →
  d !! "service_url" = Some (VStr url) →
  urllib_parse.urlparse valid_bracketed_host url = Ok parsed →
  urllib_parse.hostname parsed = Some (allowed_host cfg) →
  truthy (default VNone (d !! "bearer_token")) = false →
  google_auth_default w scopes
    (environ (detect_credentials_path cfg w (start env)).2)
  = Ok (creds, project) →
  token_after creds = Ok (Some tok) →
  tok ≠ EmptyString →
  ∃ rest,
    trace (handler msg (start env)).2
    = call_generate_access_token
      :: ws_connect (VStr url)
           [("Content-Type", "application/json");
            ("Authorization", "Bearer " +:+ tok)]
      :: rest.
Proof.
  intros Htype Hjson Hurl Hparse Hhost Hnone Hdisc Htok Hne.
  rewrite (handler_validated json_loads valid_bracketed_host py_str cfg w
             msg (start env) d url parsed) by assumption.
  unfold authenticate_and_connect, try_except, emit,
    mbind, M_bind, bind, mret, M_ret.
  rewrite Hnone. cbn [negb fst snd environ trace start app].
  rewrite (generate_access_token_success cfg w _ creds project)
    by (rewrite detect_credentials_path_trace; exact Hdisc).
  rewrite Htok, detect_credentials_path_trace. cbn [fst snd environ trace].
  destruct tok as [| c tok']; [done |]. cbn [truthy_str negb String.eqb].
  match goal with |- context [connect_and_relay ?p ?w ?u ?k ?s] =>
    destruct (connect_and_relay_shape u k s) as (o & rest & Ho & Ht & _) end.
  destruct (connect_and_relay _ _ _ _ _) as [o' st'].
  cbn [fst snd trace of_option format_value] in *. subst o'.
  exists rest. destruct o; cbn; exact Ht.
Qed.

End MoreSessions.

(** ** Destinations *)

Module more_urllib_facts.
Import urllib_parse urllib_facts observe.

#[local] Arguments String.append !s1 s2 : simpl nomatch.



Lemma host_char_not_slash c : host_char c = true → Ascii.eqb c "/" = false.
Proof. by_cases_on c. Qed.

Lemma delim_not_scheme c : netloc_delim c = true → scheme_char c = false.
Proof. by_cases_on c. Qed.

Lemma delim_not_colon c : netloc_delim c = true → Ascii.eqb c ":" = false.
Proof. by_cases_on c. Qed.

Lemma host_char_not_stripped c : host_char c = true → (code c <=? 32)%nat = false.
Proof. by_cases_on c. Qed.


Lemma all_chars_app (p : ascii → bool) (a b : string) :
  all_chars p (a +:+ b) = all_chars p a && all_chars p b.
Proof.
  induction a as [| x a IH]; simpl; [done |]. by rewrite IH, andb_assoc.
Qed.



Lemma partition_app_absent (sep : ascii) (a b : string) :
  contains sep a = false →
  partition sep (a +:+ b)
  = (a +:+ (partition sep b).1.1, (partition sep b).1.2, (partition sep b).2).
Proof.
  induction a as [| c a IH]; simpl.
  - by destruct (partition sep b) as [[? ?] ?].
  - destruct (Ascii.eqb c sep); simpl; [done |]. intros Ha. by rewrite IH.
Qed.





(** A host name with no scheme and no [//] before it is not read as a
    network location: the result has no hostname. *)
Lemma urlparse_bare_host vbh (host tail : string) :
  plain_host host = true →
  ends_host tail = true →
  ∃ parsed,
    urlparse vbh (host +:+ tail) = Ok parsed ∧ hostname parsed = None.
Proof.
  intros Hhost Htail.
  pose proof (plain_host_chars host Hhost) as Hchars.
  destruct host as [| h0 host']; [done |].
  apply andb_prop in Hchars as [Hh0 Hchars'].
  unfold urlparse.
  assert (Hstrip : lstrip_c0_space (String h0 host' +:+ tail)
                   = String h0 host' +:+ tail).
  { simpl. by rewrite (host_char_not_stripped h0 Hh0). }
  rewrite Hstrip.
  rewrite remove_unsafe_app
    by (apply (all_chars_impl host_char); [| exact (plain_host_chars _ Hhost)];
        intros c Hc; unfold safe_char; by rewrite host_char_safe).
  pose proof (ends_host_remove_unsafe tail Htail) as Htail'.
  set (tail' := remove_unsafe tail) in *.
  assert (Hscheme : split_scheme (String h0 host' +:+ tail')
                    = (EmptyString, String h0 host' +:+ tail')).
  { unfold split_scheme.
    rewrite partition_app_absent by (by apply plain_host_absent).
    destruct tail' as [| c tail'']; [done |]. simpl in Htail'.
    cbn [partition]. rewrite (delim_not_colon c Htail').
    destruct (partition ":" tail'') as [[b f] a]. cbn [fst snd].
    simpl (String h0 host' +:+ String c b).
    replace (all_chars scheme_char (String h0 (host' +:+ String c b)))
      with false; [by rewrite andb_false_r |].
    symmetry. change (String h0 (host' +:+ String c b))
      with (String h0 host' +:+ String c b).
    rewrite all_chars_app. cbn [all_chars].
    rewrite (delim_not_scheme c Htail'). by rewrite andb_false_r. }
  rewrite Hscheme. simpl (String h0 host' +:+ tail').
  assert (Hslash : Ascii.eqb h0 "/" = false) by (by apply host_char_not_slash).
  eexists. split.
  - destruct h0 as [b0 b1 b2 b3 b4 b5 b6 b7].
    destruct b0, b1, b2, b3, b4, b5, b6, b7; try discriminate Hslash;
      reflexivity.
  - reflexivity.
Qed.

End more_urllib_facts.

Section Destinations.
Import observe.

Variable json_loads : string -> result value.
Variable valid_bracketed_host : string -> bool.
Variable py_str : value -> string.
Variable cfg : Config.
Variable w : World.

Local Abbreviation handler :=
  (websocket_handler json_loads valid_bracketed_host py_str cfg w).



(** X16.  A destination written as a bare host name followed by a path,
    without scheme and [//], is always rejected with "Unauthorized Service
    URL", even when the host is the allowed one: [urlparse] finds no
    network location in it. *)
Theorem bare_host_rejected
    (msg : WSMessage) (env : gmap string string) (d : gmap string value)
    (host tail : string) :
  type msg = TEXT →
  json_loads (data msg) = Ok (VDict d) →
  d !! "service_url" = Some (VStr (host +:+ tail)) →
  urllib_parse.plain_host host = true →
  urllib_parse.ends_host tail = true →
  handler msg (start env)
  = (Returned tt,
     {| environ := env;
        trace := [ws_client_close 1008 "Unauthorized Service URL"] |}).
Proof.
  intros Htype Hjson Hurl Hhost Htail.
  destruct (more_urllib_facts.urlparse_bare_host valid_bracketed_host
              host tail Hhost Htail) as (parsed & Hparse & Hname).
  apply (handler_host_mismatch json_loads valid_bracketed_host py_str cfg w
           msg (start env) d (host +:+ tail) parsed); try done.
  - destruct host; [done | discriminate].
  - by rewrite Hname.
Qed.

End Destinations.

(** ** Process start *)

Section Startup.
Import startup.

Lemma lstrip_starts_clean (s : string) : starts_clean (lstrip s).
Proof.
  induction s as [| c s IH]; simpl; [done |].
  destruct (is_space c) eqn:Hc; [done | exact Hc].
Qed.

Lemma lstrip_clean (s : string) : starts_clean s → lstrip s = s.
Proof. destruct s as [| c s]; simpl; [done |]. by intros ->. Qed.

Lemma rstrip_starts_clean (s : string) : starts_clean s → starts_clean (rstrip s).
Proof.
  destruct s as [| c s]; simpl; [done |]. intros Hc.
  destruct (rstrip s); [by rewrite Hc | done].
Qed.

Lemma rstrip_idempotent (s : string) : rstrip (rstrip s) = rstrip s.
Proof.
  induction s as [| c s IH]; simpl; [done |].
  destruct (rstrip s) as [| c' r] eqn:Hr.
  - destruct (is_space c) eqn:Hc; simpl; [done | by rewrite Hc].
  - cbn [rstrip]. cbn [rstrip] in IH. by rewrite IH.
Qed.

Lemma strip_idempotent (s : string) : strip (strip s) = strip s.
Proof.
  unfold strip.
  rewrite (lstrip_clean (rstrip (lstrip s)))
    by apply rstrip_starts_clean, lstrip_starts_clean.
  apply rstrip_idempotent.
Qed.

(** X17.  The credentials path of the configuration is the value of
    [GOOGLE_APPLICATION_CREDENTIALS] with the surrounding white space
    removed; it is never the empty string: a variable that is unset, empty
    or blank counts as no configured path. *)
Theorem configured_path_is_stripped (env : gmap string string) :
  match GOOGLE_APPLICATION_CREDENTIALS (load_config env) with
  | Some p =>
      p = strip (os_getenv env "GOOGLE_APPLICATION_CREDENTIALS" "")
      ∧ p ≠ EmptyString ∧ strip p = p
  | None => strip (os_getenv env "GOOGLE_APPLICATION_CREDENTIALS" "") = EmptyString
  end.
Proof.
  unfold load_config. cbn [GOOGLE_APPLICATION_CREDENTIALS].
  pose proof (strip_idempotent
                (os_getenv env "GOOGLE_APPLICATION_CREDENTIALS" "")) as Hid.
  destruct (strip (os_getenv env "GOOGLE_APPLICATION_CREDENTIALS" ""))
    as [| c p]; [done |].
  change (truthy_str (Some (String c p))) with true. cbv iota.
  split; [done | split; [done | exact Hid]].
Qed.

(** X18.  In a process whose [GOOGLE_APPLICATION_CREDENTIALS] was set at
    start to a path without surrounding white space, credential resolution
    leaves [os.environ] exactly as it was: the value it writes is the value
    already there. *)
Theorem clean_setting_never_changes_environ
    (w : World) (env : gmap string string) (t : list Event) (path : string) :
  env !! "GOOGLE_APPLICATION_CREDENTIALS" = Some path →
  path ≠ EmptyString →
  strip path = path →
  environ (generate_access_token (load_config env) w
             {| environ := env; trace := t |}).2 = env.
Proof.
  intros Hvar Hne Hclean.
  destruct (generate_access_token_returns (load_config env) w
              {| environ := env; trace := t |}) as [tok ->]. cbn [snd].
  unfold detect_credentials_path, load_config, os_getenv, setenv, ret.
  cbn [GOOGLE_APPLICATION_CREDENTIALS]. rewrite Hvar. cbn [default from_option id].
  rewrite Hclean. destruct path as [| c p]; [done |]. cbn.
  by apply insert_id.
Qed.

End Startup.

(** ** The HTTP layer *)

Section Http.
Import http.

Variable json_loads : string -> result value.
Variable valid_bracketed_host : string -> bool.
Variable py_str : value -> string.
Variable cfg : Config.
Variable w : World.

Local Abbreviation endpoint :=
  (websocket_endpoint json_loads valid_bracketed_host py_str cfg w).
Local Abbreviation router :=
  (root_router json_loads valid_bracketed_host py_str cfg w).
Local Abbreviation app :=
  (serve json_loads valid_bracketed_host py_str cfg w).

Lemma health_check_pure (request : Request) (st : State) :
  health_check request st = (Returned (web_Response ("OK" ++ newline) 200), st).
Proof. reflexivity. Qed.


Lemma endpoint_not_upgraded (request : Request) (st : State) (e : exn) :
  prepare request = Raise e → endpoint request st = (Raised e, st).
Proof.
  intros Hprep. unfold websocket_endpoint, lift, raise, mbind, M_bind, bind.
  by rewrite Hprep.
Qed.


(** X20.  [root_router] goes by the Upgrade header, whose name and value
    are compared without regard to letter case: a request whose first
    header is Upgrade with the value websocket is handled as a web socket
    session; a request whose Upgrade value is anything else, or absent, is
    answered 200 with the text OK and a line feed, and nothing happens to
    the state. *)
Theorem root_router_routes_on_upgrade (request : Request) (st : State) :
  (urllib_parse.lower (headers_get (headers request) "Upgrade" "")
   ≠ "websocket" →
   router request st = (Returned (web_Response ("OK" ++ newline) 200), st))
  ∧ (∀ name value others,
       headers request = (name, value) :: others →
       urllib_parse.lower name = "upgrade" →
       urllib_parse.lower value = "websocket" →
       router request st = endpoint request st).
Proof.
  unfold root_router. split.
  - intros Hne. apply String.eqb_neq in Hne. by rewrite Hne.
  - intros name value others Hh Hname Hvalue.
    unfold headers_get. rewrite Hh. cbn [List.find fst snd].
    rewrite Hname. change (urllib_parse.lower "Upgrade") with "upgrade".
    rewrite String.eqb_refl. cbv iota. cbn [snd].
    rewrite Hvalue. by rewrite String.eqb_refl.
Qed.


(** X22.  Only a web socket session touches the state: a request leaves
    the trace and [os.environ] as they are unless it is a GET or HEAD on
    [/ws] or on [/] whose upgrade succeeds. *)
Theorem only_sessions_touch_state (request : Request) (st : State) :
  (app request st).2 = st
  ∨ (prepare request = Ok tt
     ∧ (path request = "/ws" ∨ path request = "/")
     ∧ (method request = "GET" ∨ method request = "HEAD")).
Proof.
  unfold serve, resolve, create_app. cbn [List.find fst snd].
  destruct (String.eqb_spec "/" (path request)) as [Hroot | _];
    [| destruct (String.eqb_spec "/healthz" (path request)) as [_ | _];
       [| destruct (String.eqb_spec "/ws" (path request)) as [Hws | _]]];
    cbn [snd];
    (destruct (String.eqb (method request) "GET"
               || String.eqb (method request) "HEAD") eqn:Hm; [| by left]);
    try (by left).
  - assert (Hmethod : method request = "GET" ∨ method request = "HEAD").
    { apply orb_prop in Hm as [Hm | Hm]; apply String.eqb_eq in Hm; auto. }
    unfold root_router.
    destruct (String.eqb _ "websocket"); [| by left].
    destruct (prepare request) as [[] | e] eqn:Hprep.
    + right. split; [done | split; [by right | done]].
    + left. by rewrite (endpoint_not_upgraded request st e).
  - assert (Hmethod : method request = "GET" ∨ method request = "HEAD").
    { apply orb_prop in Hm as [Hm | Hm]; apply String.eqb_eq in Hm; auto. }
    destruct (prepare request) as [[] | e] eqn:Hprep.
    + right. split; [done | split; [by left | done]].
    + left. by rewrite (endpoint_not_upgraded request st e).
Qed.

End Http.

(** ** More concrete sessions *)

Section MoreConcrete.
Import examples more_examples observe http.

Local Abbreviation session fields :=
  (more_examples.handler us_central1 no_credentials (text fields) (start ∅)).

Lemma only_allowed_host_connected_witness :
  ∃ u parsed,
    VStr good_url = VStr u
    ∧ urllib_parse.urlparse valid_bracketed_host u = Ok parsed
    ∧ urllib_parse.hostname parsed = Some (allowed_host us_central1).
Proof.
  apply (only_allowed_host_connected more_examples.json_loads
           valid_bracketed_host py_str us_central1 no_credentials
           (text hs_token) ∅ (VStr good_url)
           [("Content-Type", "application/json");
            ("Authorization", "Bearer tok")]).
  vm_compute. left. reflexivity.
Defined.

Lemma false_service_url_rejected_witness :
  session hs_empty_url
  = (Returned tt,
     {| environ := ∅;
        trace := [ws_client_close 1008 "Service URL missing"] |}).
Proof.
  apply (false_service_url_rejected more_examples.json_loads
           valid_bracketed_host py_str us_central1 no_credentials
           (text hs_empty_url) ∅ (dict_of hs_empty_url) (VStr ""));
    vm_compute; reflexivity.
Defined.

Lemma non_string_service_url_stops_witness :
  more_examples.handler us_central1 no_credentials
    {| type := TEXT; data := number_url_text |} (start ∅)
  = (Returned tt, {| environ := ∅; trace := [] |}).
Proof.
  apply (non_string_service_url_stops more_examples.json_loads
           valid_bracketed_host py_str us_central1 no_credentials
           {| type := TEXT; data := number_url_text |} ∅ number_url_dict
           (VInt 5));
    try (vm_compute; reflexivity).
  intros s. discriminate.
Defined.


Lemma server_token_forwarded_witness :
  ∃ rest,
    trace (more_examples.handler us_central1 with_credentials (text hs_good)
             (start ∅)).2
    = call_generate_access_token
      :: ws_connect (VStr good_url)
           [("Content-Type", "application/json");
            ("Authorization", "Bearer fresh")]
      :: rest.
Proof.
  apply (server_token_forwarded more_examples.json_loads
           valid_bracketed_host py_str us_central1 with_credentials
           (text hs_good) ∅ (dict_of hs_good) good_url
           {| urllib_parse.scheme := "https";
              urllib_parse.netloc := "us-central1-aiplatform.googleapis.com";
              urllib_parse.rest := "/x" |}
           expired (Some "project") "fresh");
    try (vm_compute; reflexivity).
  vm_compute; discriminate.
Defined.


Lemma bare_host_rejected_witness :
  session hs_bare
  = (Returned tt,
     {| environ := ∅;
        trace := [ws_client_close 1008 "Unauthorized Service URL"] |}).
Proof.
  apply (bare_host_rejected more_examples.json_loads
           valid_bracketed_host py_str us_central1 no_credentials
           (text hs_bare) ∅ (dict_of hs_bare)
           "us-central1-aiplatform.googleapis.com" "/ws");
    vm_compute; reflexivity.
Defined.

Lemma clean_setting_never_changes_environ_witness :
  environ (generate_access_token (startup.load_config configured_environ)
             no_credentials
             {| environ := configured_environ; trace := [] |}).2
  = configured_environ.
Proof.
  apply (clean_setting_never_changes_environ no_credentials
           configured_environ [] "/srv/key.json");
    try (vm_compute; reflexivity).
  discriminate.
Defined.


End MoreConcrete.
